(** * SiameseNetwork (omniglot/model.py): a shallow embedding

    The repository defines one class, [SiameseNetwork], a [keras.Model]
    subclass with a constructor, a forward pass ([call], with the nested
    function [encoder]) and a shape-inference method
    ([compute_output_shape]).

    Python values are embedded as follows.
    - Tensors are a shape together with their elements in row-major order.
      Elements are real numbers: the development idealises float32 as [R]
      and represents neither rounding nor infinities nor NaN.  What is
      proved about element values is limited to facts that do not depend
      on these: shapes, signs, bounds, equality of an element with
      itself.
    - Exceptions are values of [exn]; a computation that may raise returns
      a [result].
    - Local variables live in a frame, a finite map from names to values.
      Reading a local that has not been assigned raises
      [UnboundLocalError], as CPython does.
    - Layer objects built by the Keras constructors carry an identity
      ([uid]); applying a layer is recorded in a trace, so that statements
      about which layer object was evaluated on which argument are
      statements about executions.
    - What TensorFlow/Keras compute inside a layer (convolutions, pooling,
      dense projections, their argument checks) is not part of this
      repository; it is a parameter of the development. *)

From Stdlib Require Import Reals Lra ZArith.
From Stdlib Require DecimalString DecimalZ DecimalFacts.
From stdpp Require Import gmap strings list fin_maps.

Open Scope Z_scope.

(** ** Exceptions and results *)

Inductive exn : Type :=
| UnboundLocalError (name : string)
| IndexError
| TypeError
| ValueError.

Inductive result (A : Type) : Type :=
| Ok (a : A)
| Err (e : exn).
Arguments Ok {A} a.
Arguments Err {A} e.

Definition is_Err {A} (r : result A) : Prop := exists e, r = Err e.

#[global] Instance result_ret : MRet result := fun A a => Ok a.
#[global] Instance result_bind : MBind result := fun A B f r =>
  match r with
  | Ok a => f a
  | Err e => Err e
  end.

(** A computation over a mutable state [S] that may raise.  The state is
    returned in both cases: a Python exception does not roll back the
    effects that happened before it. *)
Definition M (S A : Type) : Type := S -> S * result A.

#[global] Instance M_ret {S} : MRet (M S) := fun A a st => (st, Ok a).
#[global] Instance M_bind {S} : MBind (M S) := fun A B f m st =>
  match m st with
  | (st', Ok a) => f a st'
  | (st', Err e) => (st', Err e)
  end.

Definition lift {S A} (r : result A) : M S A := fun st => (st, r).

(** ** Python objects used as configuration values *)

#[warnings="-register-all"]
Inductive pyobj : Type :=
| PyNone
| PyInt (z : Z)
| PySeq (items : list pyobj).   (* a tuple or a list *)

(** ** Tensors and run-time values *)

Record tensor : Type := Tensor { shape : list nat; data : list R }.

#[warnings="-register-all"]
Inductive value : Type :=
| VTensor (t : tensor)
| VTuple (items : list value).

(** [len(data) == prod(shape)] *)
Definition numel (s : list nat) : nat := fold_right Nat.mul 1%nat s.
Definition well_shaped (t : tensor) : Prop := length (data t) = numel (shape t).

(** ** Layer objects *)

Inductive activation : Type := relu | sigmoid.
Inductive regularizer : Type := l2.
Inductive dtype : Type := float32.

(** The constructor call that built a layer, with its arguments. *)
Inductive LayerConfig : Type :=
| InputLayer (input_shape batch_size : pyobj) (dt : dtype) (name : string)
| Conv2D (filters : Z) (kernel_size : Z * Z)
         (kernel_regularizer : regularizer) (act : activation)
| MaxPool2D (pool_size : Z * Z)
| Flatten
| Dense (units : Z) (act : activation)
| Lambda (function : value -> result value).

(** A layer object: its configuration and its identity.  Two objects built
    by two constructor calls have different [uid]s and own different
    parameters, even when their configurations agree. *)
Record Layer : Type := { config : LayerConfig; uid : nat }.

(** The model instance: the attributes assigned on [self] by [__init__]. *)
Record SiameseNetwork : Type := {
  name : string;
  num_classes : Z;
  batch_size : pyobj;
  in_shape : pyobj;
  input_layer : Layer;
  conv1 : Layer; pool1 : Layer;
  conv2 : Layer; pool2 : Layer;
  conv3 : Layer; pool3 : Layer;
  conv4 : Layer; pool4 : Layer;
  flatten : Layer;
  dense : Layer;
  l1 : Layer;
  prediction : Layer
}.

(** The layers the nested function [encoder] evaluates, in source order. *)
Definition encoder_layers (self : SiameseNetwork) : list Layer :=
  [input_layer self;
   conv1 self; pool1 self; conv2 self; pool2 self;
   conv3 self; pool3 self; conv4 self; pool4 self;
   flatten self; dense self].

Definition all_layers (self : SiameseNetwork) : list Layer :=
  encoder_layers self ++ [l1 self; prediction self].

(** ** Frames and the state of a forward pass *)

Abbreviation frame := (gmap string value).

Record state : Type := State {
  locals : frame;                   (* the running function's local variables *)
  trace : list (Layer * value)      (* layer applications so far, oldest first *)
}.

(** LOAD_FAST / STORE_FAST *)
Definition load (x : string) : M state value := fun st =>
  match locals st !! x with
  | Some v => (st, Ok v)
  | None => (st, Err (UnboundLocalError x))
  end.

Definition store (x : string) (v : value) : M state unit := fun st =>
  (State (<[x := v]> (locals st)) (trace st), Ok tt).

(** LOAD_DEREF: a variable of the enclosing function read by a closure. *)
Definition deref (enclosing : frame) (x : string) : M state value := fun st =>
  match enclosing !! x with
  | Some v => (st, Ok v)
  | None => (st, Err (UnboundLocalError x))
  end.

Definition get_locals : M state frame := fun st => (st, Ok (locals st)).

(** Run the body of a called function in a fresh frame holding its
    arguments; the caller's frame is restored when the callee returns or
    raises, the trace is shared. *)
Definition invoke {A} (args : frame) (body : M state A) : M state A := fun st =>
  let '(st', r) := body (State args (trace st)) in
  (State (locals st) (trace st'), r).

(** ** Indexing and tensor arithmetic *)

(** [v[i]] for a constant index [i >= 0].  Indexing a tuple selects an
    item; indexing a tensor selects the [i]-th slice along its first axis.
    (numpy raises IndexError when [i] is out of range, TensorFlow an error
    of its own; the development does not distinguish the two.) *)
Definition getitem (v : value) (i : nat) : result value :=
  match v with
  | VTuple items =>
      match items !! i with
      | Some x => Ok x
      | None => Err IndexError
      end
  | VTensor t =>
      match shape t with
      | [] => Err IndexError
      | d :: rest =>
          if decide (i < d)%nat
          then Ok (VTensor (Tensor rest
                     (take (numel rest) (drop (i * numel rest) (data t)))))
          else Err IndexError
      end
  end.

(** [str(n)] for a Python [int]: its decimal digits, with a leading [-]
    when it is negative. *)
Definition py_str (n : Z) : string :=
  DecimalString.NilZero.string_of_int (Z.to_int n).

(** [tf.abs] on a tensor: the absolute value of every element. *)
Definition tf_abs (t : tensor) : tensor :=
  Tensor (shape t) (Rabs <$> data t).

(** ** [tf.TensorShape] *)

(** A dimension is a non-negative integer or unknown ([None]); a shape is a
    list of dimensions, or has unknown rank ([None]). *)
Abbreviation tensor_shape := (option (list (option Z))).

(** [tensor_shape.as_dimension]: [Dimension(value)] rejects a negative
    value and a value that is not an integer. *)
Definition as_dimension (d : pyobj) : result (option Z) :=
  match d with
  | PyNone => Ok None
  | PyInt z => if decide (z < 0) then Err ValueError else Ok (Some z)
  | PySeq _ => Err TypeError
  end.

(** [tf.TensorShape(dims)]: [None] is the shape of unknown rank, a value
    that is not iterable is a single dimension, an iterable is converted
    item by item. *)
Definition TensorShape (dims : pyobj) : result tensor_shape :=
  match dims with
  | PyNone => Ok None
  | PyInt _ => d ← as_dimension dims; mret (Some [d])
  | PySeq items => ds ← mapM as_dimension items; mret (Some ds)
  end.

Definition dimension_value (d : option Z) : pyobj :=
  match d with
  | Some z => PyInt z
  | None => PyNone
  end.

(** [TensorShape.as_list()]: not defined on a shape of unknown rank. *)
Definition as_list (s : tensor_shape) : result (list pyobj) :=
  match s with
  | None => Err ValueError
  | Some ds => Ok (dimension_value <$> ds)
  end.

(** A [TensorShape] passed where dimensions are expected:
    [tf.TensorShape(shape)] copies the dimensions of [shape]. *)
Definition shape_obj (s : tensor_shape) : pyobj :=
  match s with
  | None => PyNone
  | Some ds => PySeq (dimension_value <$> ds)
  end.

(** [l[-1] = v] on a Python list. *)
Definition setitem_last (l : list pyobj) (v : pyobj) : result (list pyobj) :=
  match l with
  | [] => Err IndexError
  | _ :: _ => Ok (<[pred (length l) := v]> l)
  end.

(** ** An instance of the library

    The model is run on concrete inputs against the following instance of
    the library: constructors accept every configuration (the Keras
    releases of 2018 did not check [units] or [filters]), every kernel and
    bias is zero, convolutions use Keras' defaults (stride 1, no padding),
    pooling uses stride [pool_size] and no padding.  Tuples are not packed
    into tensors and operands of different shapes are not broadcast. *)
Module Zero.

Definition keras_init (cfg : LayerConfig) : result unit := Ok tt.

Definition activate (a : activation) (x : R) : R :=
  match a with
  | relu => Rmax 0 x
  | sigmoid => (/ (1 + exp (- x)))%R
  end.

Definition constant (c : R) (s : list nat) : tensor :=
  Tensor s (repeat c (numel s)).

(** Element [[i, y, x, ch]] of a row-major tensor of shape [[_; h; w; c]]. *)
Definition at4 (h w c : nat) (d : list R) (i y x ch : nat) : R :=
  nth (((i * h + y) * w + x) * c + ch)%nat d 0%R.

Definition conv2d (filters kh kw : nat) (a : activation) (t : tensor)
  : result value :=
  match shape t with
  | [n; h; w; _] =>
      if decide (1 <= kh <= h /\ 1 <= kw <= w)%nat
      then Ok (VTensor (constant (activate a 0)
                          [n; h - kh + 1; w - kw + 1; filters]%nat))
      else Err ValueError
  | _ => Err ValueError
  end.

Definition max_pool2d (ph pw : nat) (t : tensor) : result value :=
  match shape t with
  | [n; h; w; c] =>
      if decide (1 <= ph <= h /\ 1 <= pw <= w)%nat
      then
        let window y x ch i :=
          dy ← seq 0 ph; dx ← seq 0 pw;
          [at4 h w c (data t) i (y * ph + dy) (x * pw + dx) ch] in
        Ok (VTensor (Tensor [n; h / ph; w / pw; c]%nat
              (i ← seq 0 n; y ← seq 0 (h / ph); x ← seq 0 (w / pw);
               ch ← seq 0 c;
               [foldr Rmax (at4 h w c (data t) i (y * ph) (x * pw) ch)
                      (window y x ch i)])))
      else Err ValueError
  | _ => Err ValueError
  end.

Definition flatten_batch (t : tensor) : result value :=
  match shape t with
  | n :: rest => Ok (VTensor (Tensor [n; numel rest] (data t)))
  | [] => Err ValueError
  end.

Definition dense_zero (units : nat) (a : activation) (t : tensor) : result value :=
  match rev (shape t) with
  | _ :: (_ :: _) as batch =>
      Ok (VTensor (constant (activate a 0) (rev batch ++ [units])))
  | _ => Err ValueError
  end.

Definition keras_call (l : Layer) (v : value) : result value :=
  match config l, v with
  | InputLayer _ _ _ _, _ => Ok v
  | Conv2D filters (kh, kw) _ a, VTensor t =>
      conv2d (Z.to_nat filters) (Z.to_nat kh) (Z.to_nat kw) a t
  | MaxPool2D (ph, pw), VTensor t => max_pool2d (Z.to_nat ph) (Z.to_nat pw) t
  | Flatten, VTensor t => flatten_batch t
  | Dense units a, VTensor t => dense_zero (Z.to_nat units) a t
  | _, _ => Err ValueError
  end.

Definition tf_pack (items : list value) : result tensor := Err ValueError.

Definition tf_sub_broadcast (a b : tensor) : result tensor := Err ValueError.

(** Two all-zero 105x105 grayscale images, stacked along the first axis. *)
Definition zero_pair : value := VTensor (constant 0 [2; 105; 105; 1]%nat).

End Zero.

(** A second instance of the constructors: as in later Keras releases, a
    [Dense] layer needs a positive number of units and a [Conv2D] layer a
    positive number of filters; everything else is accepted. *)
Module Strict.

Definition keras_init (cfg : LayerConfig) : result unit :=
  match cfg with
  | Dense units _ => if decide (0 < units) then Ok tt else Err ValueError
  | Conv2D filters _ _ _ =>
      if decide (0 < filters) then Ok tt else Err ValueError
  | _ => Ok tt
  end.

End Strict.

Section Model.

(** *** The library, as far as the model touches it *)

(** Argument checks performed by a Keras layer constructor. *)
Variable keras_init : LayerConfig -> result unit.

(** The forward computation of a layer object other than a [Lambda]:
    it depends on the object (its configuration and its own parameters)
    and on the argument.  Parameters are read, not written, by a forward
    pass, so the same object on the same argument gives the same result. *)
Variable keras_call : Layer -> value -> result value.

(** [tf.convert_to_tensor] on a tuple of values. *)
Variable tf_pack : list value -> result tensor.

(** Tensor subtraction for operands whose shapes differ (broadcasting, or
    the library's shape error). *)
Variable tf_sub_broadcast : tensor -> tensor -> result tensor.

Definition convert_to_tensor (v : value) : result tensor :=
  match v with
  | VTensor t => Ok t
  | VTuple items => tf_pack items
  end.

(** [tf.subtract]: element-wise on operands of one shape. *)
Definition tf_subtract (a b : tensor) : result tensor :=
  if decide (shape a = shape b)
  then Ok (Tensor (shape a) (zip_with Rminus (data a) (data b)))
  else tf_sub_broadcast a b.

(** Python's [a - b].  A tuple does not implement [-]; when at least one
    operand is a tensor, the tensor's operator converts the other one. *)
Definition py_sub (a b : value) : result value :=
  match a, b with
  | VTuple _, VTuple _ => Err TypeError
  | _, _ =>
      ta ← convert_to_tensor a;
      tb ← convert_to_tensor b;
      d ← tf_subtract ta tb;
      mret (VTensor d)
  end.

(** *** [__init__] *)

(** A constructor call [keras.layers.C(...)]: the library checks the
    arguments, then a new object is allocated. *)
Definition new (cfg : LayerConfig) : M nat Layer := fun next =>
  match keras_init cfg with
  | Ok _ => (S next, Ok {| config := cfg; uid := next |})
  | Err e => (next, Err e)
  end.

(** [lambda x: tf.abs(x[0] - x[1])] *)
Definition l1_function (x : value) : result value :=
  a ← getitem x 0;
  b ← getitem x 1;
  d ← py_sub a b;
  t ← convert_to_tensor d;
  mret (VTensor (tf_abs t)).

(** The state threaded through [__init__] is the next free object
    identity.  [super().__init__(name='SiameseNetwork')] is the [name]
    attribute; [self.num_classes] is assigned unchecked. *)
Definition __init__ (num_classes : Z) (kwargs : gmap string pyobj)
  : M nat SiameseNetwork :=
  (* Keyword Arguments. *)
  let batch_size := default (PyInt 16) (kwargs !! "batch_size") in
  let in_shape :=
    default (PySeq [PyInt 105; PyInt 105; PyInt 1]) (kwargs !! "input_shape") in
  (* Input layer. *)
  input_layer ← new (InputLayer in_shape batch_size float32 "Images");
  (* 1st layer (64@10x10) *)
  conv1 ← new (Conv2D 64 (10, 10) l2 relu);
  pool1 ← new (MaxPool2D (2, 2));
  (* 2nd layer (128@7x7) *)
  conv2 ← new (Conv2D 128 (7, 7) l2 relu);
  pool2 ← new (MaxPool2D (2, 2));
  (* 3rd layer (128@4x4) *)
  conv3 ← new (Conv2D 128 (4, 4) l2 relu);
  pool3 ← new (MaxPool2D (2, 2));
  (* 4th layer (256@4x4) *)
  conv4 ← new (Conv2D 256 (4, 4) l2 relu);
  pool4 ← new (MaxPool2D (2, 2));
  (* 5th layer *)
  flatten ← new Flatten;
  dense ← new (Dense 4096 sigmoid);
  (* 6th - L1 layer - distance layer. *)
  l1 ← new (Lambda l1_function);
  (* Output layer *)
  prediction ← new (Dense num_classes sigmoid);
  mret {| name := "SiameseNetwork";
          num_classes := num_classes;
          batch_size := batch_size;
          in_shape := in_shape;
          input_layer := input_layer;
          conv1 := conv1; pool1 := pool1;
          conv2 := conv2; pool2 := pool2;
          conv3 := conv3; pool3 := pool3;
          conv4 := conv4; pool4 := pool4;
          flatten := flatten;
          dense := dense;
          l1 := l1;
          prediction := prediction |}.

(** *** [__repr__] *)

(** [f'models.SiameseNetwork(num_classes={self.num_classes})'] *)
Definition __repr__ (self : SiameseNetwork) : string :=
  "models.SiameseNetwork(num_classes=" +:+ py_str (num_classes self) +:+ ")".

(** *** [call] *)

(** What a layer object computes on an argument. *)
Definition layer_call (l : Layer) (v : value) : result value :=
  match config l with
  | Lambda function => function v
  | _ => keras_call l v
  end.

(** [l(v)] inside a forward pass: the application is appended to the trace. *)
Definition apply_layer (l : Layer) (v : value) : M state value := fun st =>
  (State (locals st) (trace st ++ [(l, v)]), layer_call l v).

(** The nested function [encoder(x)].  Its only local is [x]; [self] and
    [inputs] are free variables bound in the enclosing [call]. *)
Definition encoder (self : SiameseNetwork) (enclosing : frame) (x : value)
  : M state value :=
  invoke {[ "x" := x ]} (
    (* x = self.input_layer(inputs) *)
    inputs ← deref enclosing "inputs";
    r ← apply_layer (input_layer self) inputs;
    store "x" r;;
    (* x = self.pool1(self.conv1(x)) *)
    x ← load "x";
    c ← apply_layer (conv1 self) x;
    p ← apply_layer (pool1 self) c;
    store "x" p;;
    (* x = self.pool2(self.conv2(x)) *)
    x ← load "x";
    c ← apply_layer (conv2 self) x;
    p ← apply_layer (pool2 self) c;
    store "x" p;;
    (* x = self.pool3(self.conv3(x)) *)
    x ← load "x";
    c ← apply_layer (conv3 self) x;
    p ← apply_layer (pool3 self) c;
    store "x" p;;
    (* x = self.pool4(self.conv4(x)) *)
    x ← load "x";
    c ← apply_layer (conv4 self) x;
    p ← apply_layer (pool4 self) c;
    store "x" p;;
    (* x = self.flatten(x) *)
    x ← load "x";
    r ← apply_layer (flatten self) x;
    store "x" r;;
    (* x = self.dense(x) *)
    x ← load "x";
    r ← apply_layer (dense self) x;
    store "x" r;;
    (* return x *)
    load "x").

(** [first = encoder(inputs[0])] *)
Definition call_first (self : SiameseNetwork) : M state unit :=
  inputs ← load "inputs";
  a ← lift (getitem inputs 0);
  enclosing ← get_locals;
  first ← encoder self enclosing a;
  store "first" first.

(** [second = encoder(inputs[1])] *)
Definition call_second (self : SiameseNetwork) : M state unit :=
  inputs ← load "inputs";
  b ← lift (getitem inputs 1);
  enclosing ← get_locals;
  second ← encoder self enclosing b;
  store "second" second.

(** [distance = self.l1((first, second))] *)
Definition call_distance (self : SiameseNetwork) : M state unit :=
  first ← load "first";
  second ← load "second";
  distance ← apply_layer (l1 self) (VTuple [first; second]);
  store "distance" distance.

(** [x = self.prediction(x)] *)
Definition call_prediction (self : SiameseNetwork) : M state unit :=
  x ← load "x";
  r ← apply_layer (prediction self) x;
  store "x" r.

(** The body of [call], statement by statement; [x] is a local of [call]
    because [call] assigns it. *)
Definition call_body (self : SiameseNetwork) : M state value :=
  call_first self;;
  call_second self;;
  call_distance self;;
  call_prediction self;;
  (* return x *)
  load "x".

(** The frame [call] starts in, restricted to the variables that hold
    tensors.  The real frame also binds [self], [kwargs] and, from line
    100 on, [encoder]: here [self] is the argument of every definition,
    [kwargs] is never read, and [encoder] is the definition above.  A
    frame of this development therefore says nothing about those three
    names. *)
Definition call_frame (inputs : value) : state :=
  State {[ "inputs" := inputs ]} [].

(** A forward pass: the final state and the outcome. *)
Definition run_call (self : SiameseNetwork) (inputs : value)
  : state * result value :=
  call_body self (call_frame inputs).

Definition call (self : SiameseNetwork) (inputs : value) : result value :=
  snd (run_call self inputs).

(** The state [call] has reached once the distance statement is done (or
    has raised). *)
Definition run_to_distance (self : SiameseNetwork) (inputs : value)
  : state * result unit :=
  (call_first self;; call_second self;; call_distance self) (call_frame inputs).

(** *** [compute_output_shape] *)

Definition compute_output_shape (self : SiameseNetwork) (input_shape : pyobj)
  : result tensor_shape :=
  (* shape = tf.TensorShape(input_shape).as_list() *)
  s ← TensorShape input_shape;
  shape ← as_list s;
  (* shape[-1] = self.num_classes *)
  shape ← setitem_last shape (PyInt (num_classes self));
  (* return tf.TensorShape(shape) *)
  TensorShape (PySeq shape).

(** ** Derived descriptions used to state the results *)

(** The layers [ls] applied one after the other, starting from [v]: the
    applications made and the outcome.  The first failure ends it. *)
Fixpoint pipeline (ls : list Layer) (v : value)
  : list (Layer * value) * result value :=
  match ls with
  | [] => ([], Ok v)
  | l :: ls' =>
      match layer_call l v with
      | Ok v' => let '(evs, r) := pipeline ls' v' in ((l, v) :: evs, r)
      | Err e => ([(l, v)], Err e)
      end
  end.

(** The constructor calls [__init__] makes, in source order. *)
Definition layer_configs (num_classes : Z) (kwargs : gmap string pyobj)
  : list LayerConfig :=
  [InputLayer (default (PySeq [PyInt 105; PyInt 105; PyInt 1])
                       (kwargs !! "input_shape"))
              (default (PyInt 16) (kwargs !! "batch_size"))
              float32 "Images";
   Conv2D 64 (10, 10) l2 relu; MaxPool2D (2, 2);
   Conv2D 128 (7, 7) l2 relu; MaxPool2D (2, 2);
   Conv2D 128 (4, 4) l2 relu; MaxPool2D (2, 2);
   Conv2D 256 (4, 4) l2 relu; MaxPool2D (2, 2);
   Flatten;
   Dense 4096 sigmoid;
   Lambda l1_function;
   Dense num_classes sigmoid].

(** A tensor of zeros with the shape and size of [t]. *)
Definition zeros_like (t : tensor) : tensor :=
  Tensor (shape t) (repeat 0%R (length (data t))).

(** A dimension [tf.TensorShape] accepts. *)
Definition valid_dim (d : option Z) : Prop :=
  match d with
  | Some z => 0 <= z
  | None => True
  end.

(** ** The nested function [encoder] *)

Ltac step_layer :=
  match goal with
  | |- context [layer_call ?l ?v] =>
      destruct (layer_call l v) eqn:?; cbn [fst snd];
      [ rewrite ?lookup_insert_eq | try reflexivity ]
  end.

Lemma encoder_pipeline self enclosing x st :
  encoder self enclosing x st =
    match enclosing !! "inputs" with
    | Some inputs =>
        (State (locals st) (trace st ++ fst (pipeline (encoder_layers self) inputs)),
         snd (pipeline (encoder_layers self) inputs))
    | None => (State (locals st) (trace st), Err (UnboundLocalError "inputs"))
    end.
Proof.
  unfold encoder, invoke, deref.
  cbv [mbind M_bind load store apply_layer locals trace].
  destruct (enclosing !! "inputs") as [inputs|]; [|reflexivity].
  cbn [encoder_layers pipeline].
  repeat step_layer.
  all: rewrite <- ?app_assoc; reflexivity.
Qed.

Lemma pipeline_layers ls v :
  Forall (fun ev => fst ev ∈ ls) (fst (pipeline ls v)).
Proof.
  revert v. induction ls as [|l ls IH]; intros v; cbn [pipeline].
  - constructor.
  - destruct (layer_call l v) as [v'|e].
    + specialize (IH v'). destruct (pipeline ls v') as [evs r]. cbn [fst] in *.
      constructor; [apply elem_of_cons; by left|].
      eapply Forall_impl; [exact IH|].
      intros ev Hev. apply elem_of_cons. by right.
    + constructor; [apply elem_of_cons; by left | constructor].
Qed.

(** A pipeline that succeeds has applied every layer, in order. *)
Lemma pipeline_ok_layers ls v r :
  snd (pipeline ls v) = Ok r -> fst <$> fst (pipeline ls v) = ls.
Proof.
  revert v. induction ls as [|l ls IH]; intros v; cbn [pipeline].
  - reflexivity.
  - destruct (layer_call l v) as [v'|e]; [|discriminate].
    specialize (IH v'). destruct (pipeline ls v') as [evs r'].
    cbn [fst snd] in *. intros H. cbn. by rewrite IH.
Qed.

(** The embedding does not depend on the argument: both occurrences of [x]
    that could have read it are preceded by an assignment to [x]. *)
Lemma encoder_argument self enclosing x y st :
  encoder self enclosing x st = encoder self enclosing y st.
Proof. by rewrite !encoder_pipeline. Qed.

(** ** The body of [call] *)

Lemma run_to_distance_spec self inputs :
  run_to_distance self inputs =
    let fr0 : frame := {[ "inputs" := inputs ]} in
    let p := pipeline (encoder_layers self) inputs in
    match getitem inputs 0 with
    | Err e => (State fr0 [], Err e)
    | Ok _ =>
        match snd p with
        | Err e => (State fr0 (fst p), Err e)
        | Ok emb =>
            let fr1 : frame := <[ "first" := emb ]> fr0 in
            match getitem inputs 1 with
            | Err e => (State fr1 (fst p), Err e)
            | Ok _ =>
                let fr2 : frame := <[ "second" := emb ]> fr1 in
                let tr := fst p ++ fst p ++ [(l1 self, VTuple [emb; emb])] in
                match layer_call (l1 self) (VTuple [emb; emb]) with
                | Err e => (State fr2 tr, Err e)
                | Ok d => (State (<[ "distance" := d ]> fr2) tr, Ok tt)
                end
            end
        end
    end.
Proof.
  unfold run_to_distance, call_first, call_second, call_distance, call_frame.
  cbv [mbind M_bind load lift get_locals store apply_layer locals trace].
  rewrite lookup_singleton_eq.
  destruct (getitem inputs 0); [|reflexivity].
  rewrite encoder_pipeline. cbn [locals trace]. rewrite lookup_singleton_eq.
  destruct (pipeline (encoder_layers self) inputs) as [evs [emb|e]] eqn:Hp;
    cbn [fst snd]; [|reflexivity].
  rewrite lookup_insert_ne by done. rewrite lookup_singleton_eq.
  destruct (getitem inputs 1); [|reflexivity].
  rewrite encoder_pipeline. cbn [locals trace].
  rewrite lookup_insert_ne by done. rewrite lookup_singleton_eq.
  rewrite Hp. cbn [fst snd].
  rewrite lookup_insert_ne by done. rewrite lookup_insert_eq.
  rewrite lookup_insert_eq.
  rewrite <- app_assoc.
  destruct (layer_call (l1 self) (VTuple [emb; emb])); reflexivity.
Qed.

Lemma call_body_split self st :
  call_body self st =
    match (call_first self;; call_second self;; call_distance self) st with
    | (st', Ok _) => (call_prediction self;; load "x") st'
    | (st', Err e) => (st', Err e)
    end.
Proof.
  unfold call_body. cbv [mbind M_bind].
  destruct (call_first self st) as [st1 [[]|e1]]; [|reflexivity].
  destruct (call_second self st1) as [st2 [[]|e2]]; [|reflexivity].
  destruct (call_distance self st2) as [st3 [[]|e3]]; reflexivity.
Qed.

(** No statement before line 124 assigns [x] in the frame of [call]. *)
Lemma distance_frame_x self inputs st u :
  run_to_distance self inputs = (st, Ok u) -> locals st !! "x" = None.
Proof.
  rewrite run_to_distance_spec. cbv zeta.
  destruct (getitem inputs 0); [|discriminate].
  destruct (snd (pipeline (encoder_layers self) inputs)); [|discriminate].
  destruct (getitem inputs 1); [|discriminate].
  destruct (layer_call (l1 self) _); [|discriminate].
  intros [= <- _]. cbn [locals]. by simplify_map_eq.
Qed.

(** A pass that reaches the end of the distance statement has run the
    encoder layers twice, on the same arguments, and then [l1]. *)
Lemma distance_trace self inputs st u :
  run_to_distance self inputs = (st, Ok u) ->
  exists evs emb,
    trace st = evs ++ evs ++ [(l1 self, VTuple [emb; emb])] /\
    fst <$> evs = encoder_layers self /\
    locals st !! "first" = Some emb /\
    locals st !! "second" = Some emb /\
    exists d, locals st !! "distance" = Some d /\
              layer_call (l1 self) (VTuple [emb; emb]) = Ok d.
Proof.
  rewrite run_to_distance_spec. cbv zeta.
  destruct (getitem inputs 0); [|discriminate].
  destruct (snd (pipeline (encoder_layers self) inputs)) as [emb|] eqn:Hp;
    [|discriminate].
  destruct (getitem inputs 1); [|discriminate].
  destruct (layer_call (l1 self) _) as [d|] eqn:Hd; [|discriminate].
  intros [= <- _]. cbn [locals trace].
  exists (fst (pipeline (encoder_layers self) inputs)), emb.
  split; [reflexivity|]. split; [by eapply pipeline_ok_layers|].
  split; [by simplify_map_eq|]. split; [by simplify_map_eq|].
  exists d. split; [by simplify_map_eq | exact Hd].
Qed.

Lemma run_call_spec self inputs :
  run_call self inputs =
    match run_to_distance self inputs with
    | (st, Ok _) => (st, Err (UnboundLocalError "x"))
    | (st, Err e) => (st, Err e)
    end.
Proof.
  unfold run_call. rewrite call_body_split.
  fold (run_to_distance self inputs).
  destruct (run_to_distance self inputs) as [st [u|e]] eqn:Hd; [|reflexivity].
  apply distance_frame_x in Hd.
  unfold call_prediction. cbv [mbind M_bind load]. by rewrite Hd.
Qed.

Lemma call_raises self inputs : is_Err (call self inputs).
Proof.
  unfold call. rewrite run_call_spec.
  destruct (run_to_distance self inputs) as [st [u|e]]; eexists; reflexivity.
Qed.

Lemma run_call_trace self inputs :
  Forall (fun ev => fst ev ∈ encoder_layers self ++ [l1 self])
         (trace (fst (run_call self inputs))).
Proof.
  assert (Hp : Forall (fun ev => fst ev ∈ encoder_layers self ++ [l1 self])
                 (fst (pipeline (encoder_layers self) inputs))).
  { eapply Forall_impl; [apply pipeline_layers|].
    intros ev Hev. apply elem_of_app. by left. }
  assert (Hd : forall st r, run_to_distance self inputs = (st, r) ->
            Forall (fun ev => fst ev ∈ encoder_layers self ++ [l1 self]) (trace st)).
  { intros st r. rewrite run_to_distance_spec. cbv zeta.
    destruct (getitem inputs 0); [|intros [= <- _]; constructor].
    destruct (snd (pipeline (encoder_layers self) inputs)); [|by intros [= <- _]].
    destruct (getitem inputs 1); [|by intros [= <- _]].
    assert (Forall (fun ev => fst ev ∈ encoder_layers self ++ [l1 self])
              (fst (pipeline (encoder_layers self) inputs) ++
               fst (pipeline (encoder_layers self) inputs) ++
               [(l1 self, VTuple [a0; a0])])).
    { rewrite !Forall_app. repeat split; try done.
      constructor; [|constructor].
      apply elem_of_app. right. by apply list_elem_of_singleton. }
    destruct (layer_call (l1 self) _); by intros [= <- _]. }
  rewrite run_call_spec.
  destruct (run_to_distance self inputs) as [st [u|e]] eqn:E;
    cbn [fst]; eapply Hd; reflexivity.
Qed.

(** ** [__init__] *)

Ltac step_new :=
  match goal with
  | |- context [keras_init ?c] =>
      destruct (keras_init c) as [[]|] eqn:?
  end.

Lemma init_inv nc (kwargs : gmap string pyobj) n n' self :
  __init__ nc kwargs n = (n', Ok self) ->
  n' = (13 + n)%nat /\
  config <$> all_layers self = layer_configs nc kwargs /\
  uid <$> all_layers self = seq n 13 /\
  num_classes self = nc /\
  Forall (fun cfg => keras_init cfg = Ok tt) (layer_configs nc kwargs).
Proof.
  unfold __init__, new. cbv [mbind M_bind mret M_ret].
  repeat (step_new; [|discriminate]).
  intros [= <- <-]. unfold layer_configs.
  repeat split. repeat constructor; assumption.
Qed.

Lemma init_accepted nc (kwargs : gmap string pyobj) n :
  Forall (fun cfg => keras_init cfg = Ok tt) (layer_configs nc kwargs) ->
  exists self, __init__ nc kwargs n = ((13 + n)%nat, Ok self).
Proof.
  unfold layer_configs. intros H.
  repeat (apply Forall_cons_1 in H; destruct H as [? H]).
  unfold __init__, new. cbv [mbind M_bind mret M_ret].
  repeat (match goal with
          | E : keras_init ?c = Ok tt |- context [keras_init ?c] => rewrite E
          end).
  eexists. reflexivity.
Qed.

Lemma init_error nc (kwargs : gmap string pyobj) n n' e :
  __init__ nc kwargs n = (n', Err e) ->
  exists cfg, cfg ∈ layer_configs nc kwargs /\ keras_init cfg = Err e.
Proof.
  unfold __init__, new, layer_configs. cbv [mbind M_bind mret M_ret].
  repeat (step_new;
          [| intros [= _ <-]; eexists; split; [|eassumption];
             repeat (first [apply list_elem_of_here | apply list_elem_of_further])]).
  discriminate.
Qed.

Lemma init_l1 nc (kwargs : gmap string pyobj) n n' self :
  __init__ nc kwargs n = (n', Ok self) -> config (l1 self) = Lambda l1_function.
Proof. intros H. apply init_inv in H as (_ & Hc & _). by injection Hc. Qed.

(** ** The distance layer *)

Lemma abs_sub_zip (a b : list R) :
  Rabs <$> zip_with Rminus a b = zip_with (fun x y => Rabs (x - y)) a b.
Proof.
  revert b. induction a as [|x a IH]; intros [|y b]; cbn; try reflexivity.
  by rewrite IH.
Qed.

Lemma abs_sub_self (a : list R) :
  Rabs <$> zip_with Rminus a a = repeat 0%R (length a).
Proof.
  induction a as [|x a IH]; cbn; [reflexivity|].
  by rewrite IH, Rminus_diag, Rabs_R0.
Qed.

Lemma l1_function_tensors (a b : tensor) :
  shape a = shape b ->
  l1_function (VTuple [VTensor a; VTensor b]) =
    Ok (VTensor (Tensor (shape a)
          (zip_with (fun x y => Rabs (x - y)) (data a) (data b)))).
Proof.
  intros H. unfold l1_function, py_sub, tf_subtract. cbn.
  rewrite decide_True by done. cbn. unfold tf_abs. cbn.
  by rewrite abs_sub_zip.
Qed.

Lemma l1_function_self (e : tensor) :
  l1_function (VTuple [VTensor e; VTensor e]) = Ok (VTensor (zeros_like e)).
Proof.
  rewrite l1_function_tensors by reflexivity.
  by rewrite <- abs_sub_zip, abs_sub_self.
Qed.

Lemma l1_function_same v d :
  l1_function (VTuple [v; v]) = Ok d ->
  exists e, v = VTensor e /\ d = VTensor (zeros_like e).
Proof.
  destruct v as [e|items].
  - rewrite l1_function_self. intros [= <-]. by exists e.
  - discriminate.
Qed.

(** ** [compute_output_shape] *)

Lemma mapM_as_dimension ds :
  Forall valid_dim ds -> mapM as_dimension (dimension_value <$> ds) = Ok ds.
Proof.
  induction 1 as [|d ds Hd _ IH]; cbn; [reflexivity|].
  rewrite IH. destruct d as [z|]; cbn in *; [|reflexivity].
  by rewrite decide_False by lia.
Qed.

Lemma setitem_last_app l x v : setitem_last (l ++ [x]) v = Ok (l ++ [v]).
Proof.
  unfold setitem_last. destruct (l ++ [x]) eqn:E; [by destruct l|].
  rewrite <- E. f_equal. rewrite length_app. cbn.
  replace (pred (length l + 1)) with (length l + 0)%nat by lia.
  by rewrite insert_app_r.
Qed.

(** Outside its domain the method raises: a shape of unknown rank has no
    list of dimensions, a scalar shape has no last dimension, and a
    negative [num_classes] is not a dimension. *)
Lemma compute_output_shape_unknown_rank self :
  compute_output_shape self PyNone = Err ValueError.
Proof. reflexivity. Qed.

Lemma compute_output_shape_scalar self :
  compute_output_shape self (PySeq []) = Err IndexError.
Proof. reflexivity. Qed.

Lemma compute_output_shape_negative self (ds : list (option Z)) d :
  Forall valid_dim (ds ++ [d]) ->
  num_classes self < 0 ->
  compute_output_shape self (PySeq (dimension_value <$> ds ++ [d])) =
    Err ValueError.
Proof.
  intros Hv Hn. unfold compute_output_shape.
  cbn [TensorShape]. rewrite (mapM_as_dimension (ds ++ [d]) Hv).
  cbn [mbind result_bind mret result_ret as_list].
  rewrite fmap_app. cbn [fmap list_fmap]. rewrite setitem_last_app.
  cbn [mbind result_bind TensorShape].
  apply Forall_app in Hv as [Hds _]. clear d.
  induction Hds as [|x xs Hx _ IH]; cbn.
  - rewrite decide_True by lia. reflexivity.
  - destruct (mapM as_dimension ((dimension_value <$> xs) ++
                                 [PyInt (num_classes self)]));
      [discriminate IH|].
    injection IH as ->.
    destruct x as [z|]; cbn in *; [rewrite decide_False by lia|]; reflexivity.
Qed.

(** ** Results *)

(** C1.  The forward pass does not apply the classifier to the distance.
    Line 124 passes [x] to [self.prediction]; [x] is a local variable of
    [call] that no earlier statement assigns.  So once the distance has
    been computed the pass raises [UnboundLocalError] for [x], in the very
    state the distance statement left: [prediction] is not applied, and
    the value bound to [distance] is never read.  When an earlier
    statement raises, that exception is the outcome. *)
Theorem call_raises_unbound_x self inputs :
  run_call self inputs =
    match run_to_distance self inputs with
    | (st, Ok _) => (st, Err (UnboundLocalError "x"))
    | (st, Err e) => (st, Err e)
    end.
Proof.
  pose proof (run_call_spec self inputs) as H.
  destruct (run_to_distance self inputs) as [st [u|e]]; exact H.
Qed.

(** C2.  The nested function [encoder] does not encode its argument.  Its
    first statement overwrites [x] with [self.input_layer(inputs)], where
    [inputs] is the whole input of the enclosing [call]: whatever image
    is passed, the layers are applied to the whole pair, and the embedding
    is the outcome of that pipeline. *)
Theorem encoder_reads_enclosing_inputs self inputs (enclosing : frame) x st :
  encoder self (<[ "inputs" := inputs ]> enclosing) x st =
    (State (locals st)
           (trace st ++ fst (pipeline (encoder_layers self) inputs)),
     snd (pipeline (encoder_layers self) inputs)).
Proof. rewrite encoder_pipeline. by rewrite lookup_insert_eq. Qed.

(** C3.  Construction allocates every layer object exactly once: the
    thirteen objects of a constructed model carry the thirteen consecutive
    identities handed out during [__init__], so there is one encoder
    parameter set and no layer exists twice.  In a forward pass in which
    both images can be selected and the first tower yields a tensor, the
    first tower applies every encoder layer object once, in source order,
    these being the objects with the identities [n .. n+10]; the second
    tower, run where the pass runs it, applies the very same objects to
    the same arguments and yields the same embedding; the pass reaches
    the distance, and its trace is the applications of the first tower,
    the same applications once more, and then [l1].  Consequently any
    one image sent through the first and through the second invocation
    gives the same embedding. *)
Theorem encoder_parameters_shared nc (kwargs : gmap string pyobj) n n' self
    inputs a b (e : tensor) :
  __init__ nc kwargs n = (n', Ok self) ->
  getitem inputs 0 = Ok a ->
  getitem inputs 1 = Ok b ->
  snd (encoder self {[ "inputs" := inputs ]} a (call_frame inputs))
    = Ok (VTensor e) ->
  uid <$> all_layers self = seq n 13 /\
  n' = (13 + n)%nat /\
  exists evs,
    let st1 :=
      State (<[ "first" := VTensor e ]> {[ "inputs" := inputs ]}) evs in
    encoder self {[ "inputs" := inputs ]} a (call_frame inputs)
      = (State {[ "inputs" := inputs ]} evs, Ok (VTensor e)) /\
    encoder self (locals st1) b st1
      = (State (locals st1) (evs ++ evs), Ok (VTensor e)) /\
    fst <$> evs = encoder_layers self /\
    (fun ev => uid (fst ev)) <$> evs = seq n 11 /\
    (forall img,
       snd (encoder self {[ "inputs" := inputs ]} img (call_frame inputs))
       = snd (encoder self (locals st1) img st1)) /\
    snd (run_to_distance self inputs) = Ok tt /\
    trace (fst (run_to_distance self inputs))
      = evs ++ evs ++ [(l1 self, VTuple [VTensor e; VTensor e])].
Proof.
  intros Hi Ha Hb He.
  pose proof (init_l1 _ _ _ _ _ Hi) as Hl1.
  apply init_inv in Hi as (Hn & _ & Hu & _).
  split; [exact Hu|]. split; [exact Hn|].
  rewrite encoder_pipeline, lookup_singleton_eq in He. cbn [snd] in He.
  exists (fst (pipeline (encoder_layers self) inputs)). cbv zeta.
  assert (Hf : fst <$> fst (pipeline (encoder_layers self) inputs)
               = encoder_layers self) by (by eapply pipeline_ok_layers).
  split; [|split; [|split; [exact Hf|split; [|split; [|split]]]]].
  - rewrite encoder_pipeline, lookup_singleton_eq.
    cbn [locals trace call_frame]. by rewrite He.
  - rewrite encoder_pipeline. cbn [locals trace].
    rewrite lookup_insert_ne by done. rewrite lookup_singleton_eq.
    by rewrite He.
  - change (fun ev : Layer * value => uid (fst ev))
      with (uid ∘ (fst : Layer * value -> Layer)).
    rewrite list_fmap_compose, Hf.
    cbn in Hu. injection Hu; intros. cbn. congruence.
  - intros img. rewrite !encoder_pipeline. cbn [locals].
    rewrite lookup_insert_ne by done. by rewrite !lookup_singleton_eq.
  - rewrite run_to_distance_spec. cbv zeta. rewrite Ha, He, Hb.
    unfold layer_call. by rewrite Hl1, l1_function_self.
  - rewrite run_to_distance_spec. cbv zeta. rewrite Ha, He, Hb.
    unfold layer_call. by rewrite Hl1, l1_function_self.
Qed.

(** C4.  On a pair of image batches of shape (batch, 105, 105, 1) the
    forward pass returns no result: its outcome is an exception. *)
Theorem call_returns_no_result self (batch : nat) (d1 d2 : list R) :
  is_Err (call self (VTuple [VTensor (Tensor [batch; 105; 105; 1]%nat d1);
                            VTensor (Tensor [batch; 105; 105; 1]%nat d2)])).
Proof. apply call_raises. Qed.

(** C5.  For a pair (A, B) the forward pass yields no score, and none for
    the swapped pair (B, A) either: both calls end in an exception. *)
Theorem call_swapped_pair_no_score self (A B : value) :
  is_Err (call self (VTuple [A; B])) /\ is_Err (call self (VTuple [B; A])).
Proof. split; apply call_raises. Qed.

(** C6.  The distance layer [l1] of a constructed model, applied to two
    well-shaped tensors of one shape, returns the tensor of that shape
    whose elements are the absolute differences of the corresponding
    elements; the result is well-shaped and each of its elements is
    greater than or equal to 0. *)
Theorem l1_absolute_difference nc (kwargs : gmap string pyobj) n n' self
    (a b : tensor) :
  __init__ nc kwargs n = (n', Ok self) ->
  well_shaped a -> well_shaped b -> shape a = shape b ->
  exists d,
    layer_call (l1 self) (VTuple [VTensor a; VTensor b]) = Ok (VTensor d) /\
    shape d = shape a /\
    well_shaped d /\
    data d = zip_with (fun x y => Rabs (x - y)) (data a) (data b) /\
    Forall (fun r => (0 <= r)%R) (data d).
Proof.
  intros H Ha Hb Hs. apply init_l1 in H.
  unfold layer_call. rewrite H, (l1_function_tensors a b Hs).
  eexists. split; [reflexivity|]. cbn [shape data].
  split; [reflexivity|]. split; [|split; [reflexivity|]].
  - unfold well_shaped in *. cbn [shape data].
    rewrite length_zip_with. rewrite Ha, Hb, Hs. lia.
  - rewrite <- abs_sub_zip. apply Forall_fmap, Forall_true.
    intros r. apply Rabs_pos.
Qed.

(** C7.  The forward pass produces no similarity score: its outcome is an
    exception, and every layer it has applied by then is an encoder layer
    or the distance layer; the sigmoid output layer [prediction] is
    evaluated on nothing. *)
Theorem call_produces_no_score self inputs :
  is_Err (call self inputs) /\
  Forall (fun ev => fst ev ∈ encoder_layers self ++ [l1 self])
         (trace (fst (run_call self inputs))).
Proof. split; [apply call_raises | apply run_call_trace]. Qed.

(** What the method computes where it is defined: given an input shape of
    known rank at least 1 whose dimensions are valid, and a non-negative
    [num_classes], [compute_output_shape] returns the input shape with
    its last dimension replaced by [num_classes]; all leading dimensions
    are kept, whatever the rank. *)
Theorem compute_output_shape_replaces_last self
    (ds : list (option Z)) (d : option Z) :
  Forall valid_dim (ds ++ [d]) ->
  0 <= num_classes self ->
  compute_output_shape self (PySeq (dimension_value <$> ds ++ [d])) =
    Ok (Some (ds ++ [Some (num_classes self)])).
Proof.
  intros Hv Hn. unfold compute_output_shape.
  cbn [TensorShape]. rewrite (mapM_as_dimension (ds ++ [d]) Hv).
  cbn [mbind result_bind mret result_ret as_list].
  rewrite fmap_app. cbn [fmap list_fmap]. rewrite setitem_last_app.
  cbn [mbind result_bind TensorShape].
  change [PyInt (num_classes self)]
    with (dimension_value <$> [Some (num_classes self)]).
  rewrite <- fmap_app, mapM_as_dimension; [reflexivity|].
  apply Forall_app in Hv as [Hds _]. apply Forall_app.
  split; [exact Hds|]. by repeat constructor.
Qed.

(** C9 (amended).  [__init__] checks nothing itself.  Construction succeeds
    exactly when the library's constructors accept the thirteen layer
    configurations ([num_classes] occurs only as the [units] of the last
    one); when construction fails, the exception is the one a library
    constructor raised. *)
Theorem init_validates_nothing nc (kwargs : gmap string pyobj) n :
  ((exists self, __init__ nc kwargs n = ((13 + n)%nat, Ok self)) <->
   Forall (fun cfg => keras_init cfg = Ok tt) (layer_configs nc kwargs)) /\
  (forall n' e, __init__ nc kwargs n = (n', Err e) ->
     exists cfg, cfg ∈ layer_configs nc kwargs /\ keras_init cfg = Err e).
Proof.
  split; [split|].
  - intros [self H]. by apply init_inv in H as (_ & _ & _ & _ & H).
  - apply init_accepted.
  - intros n' e. apply init_error.
Qed.

(** C10.  In a constructed model the two tower invocations produce the
    same embedding whatever image is passed: [encoder] never reads its
    argument.  Consequently, whenever a forward pass computes the
    distance, [first] and [second] hold one and the same tensor and
    [distance] holds the all-zero tensor of its shape and size.  The
    distance is computed whenever both images can be selected and the
    encoder yields a tensor. *)
Theorem towers_agree_distance_zero nc (kwargs : gmap string pyobj) n n' self :
  __init__ nc kwargs n = (n', Ok self) ->
  (forall (enclosing : frame) x y st,
     encoder self enclosing x st = encoder self enclosing y st) /\
  (forall inputs st,
     run_to_distance self inputs = (st, Ok tt) ->
     exists e,
       locals st !! "first" = Some (VTensor e) /\
       locals st !! "second" = Some (VTensor e) /\
       locals st !! "distance" = Some (VTensor (zeros_like e))) /\
  (forall inputs a b e,
     getitem inputs 0 = Ok a ->
     getitem inputs 1 = Ok b ->
     snd (encoder self {[ "inputs" := inputs ]} a (call_frame inputs))
       = Ok (VTensor e) ->
     let r := run_to_distance self inputs in
     snd r = Ok tt /\
     locals (fst r) !! "first" = Some (VTensor e) /\
     locals (fst r) !! "second" = Some (VTensor e) /\
     locals (fst r) !! "distance" = Some (VTensor (zeros_like e))).
Proof.
  intros Hi. apply init_l1 in Hi.
  split; [intros; apply encoder_argument|]. split.
  - intros inputs st Hd.
    apply distance_trace in Hd as (_ & emb & _ & _ & Hf & Hs & d & Hd & Hl).
    unfold layer_call in Hl. rewrite Hi in Hl.
    apply l1_function_same in Hl as (e & -> & ->). by exists e.
  - intros inputs a b e Ha Hb He. cbv zeta.
    rewrite encoder_pipeline, lookup_singleton_eq in He. cbn [snd] in He.
    rewrite run_to_distance_spec. cbv zeta. rewrite Ha, He, Hb.
    unfold layer_call. rewrite Hi.
    rewrite l1_function_self. cbn [fst snd locals].
    repeat split; by simplify_map_eq.
Qed.

(** ** Further properties of the constructor and of [__repr__] *)

Lemma to_int_printable (z : Z) :
  Z.to_int z <> Decimal.Pos Decimal.Nil /\
  Z.to_int z <> Decimal.Neg Decimal.Nil.
Proof.
  assert (H : Z.to_int z = Decimal.norm (Z.to_int z)).
  { rewrite <- DecimalZ.to_of. by rewrite DecimalZ.of_to. }
  rewrite H. destruct (Z.to_int z) as [d|d]; cbn [Decimal.norm].
  - split; [|discriminate]. intros [= E].
    by apply DecimalFacts.unorm_nonnil in E.
  - destruct (Decimal.nzhead d) eqn:E; split; discriminate.
Qed.

Lemma py_str_inj (m n : Z) : py_str m = py_str n -> m = n.
Proof.
  unfold py_str. intros H. apply DecimalZ.to_int_inj.
  destruct (to_int_printable m) as [Hm1 Hm2].
  destruct (to_int_printable n) as [Hn1 Hn2].
  pose proof (DecimalString.NilZero.isi _ Hm1 Hm2) as Em.
  pose proof (DecimalString.NilZero.isi _ Hn1 Hn2) as En.
  rewrite H in Em. rewrite Em in En. by injection En.
Qed.

Lemma length_append (s t : string) :
  String.length (s +:+ t) = (String.length s + String.length t)%nat.
Proof.
  induction s as [|c s IH]; [reflexivity|].
  change (String.length (String c (s +:+ t))
          = S (String.length s + String.length t)).
  cbn [String.length]. by rewrite IH.
Qed.

Lemma append_inj_l (s t u : string) : s +:+ u = t +:+ u -> s = t.
Proof.
  intros H.
  assert (Hl : String.length s = String.length t).
  { apply (f_equal String.length) in H.
    rewrite !length_append in H. lia. }
  revert t H Hl. induction s as [|c s IH]; intros [|d t] H Hl;
    try discriminate Hl; [reflexivity|].
  change (String c (s +:+ u) = String d (t +:+ u)) in H.
  injection H as -> H. f_equal. apply IH; [exact H|].
  cbn in Hl. lia.
Qed.

(** X1.  The text of [__repr__] determines [num_classes] and nothing else:
    two models have the same text exactly when they have the same
    [num_classes]. *)
Theorem repr_determines_num_classes (s1 s2 : SiameseNetwork) :
  __repr__ s1 = __repr__ s2 <-> num_classes s1 = num_classes s2.
Proof.
  unfold __repr__. split.
  - intros H. apply (inj (String.append _)) in H.
    apply append_inj_l in H. by apply py_str_inj.
  - by intros ->.
Qed.

(** X2.  Keyword arguments other than [batch_size] and [input_shape] are
    ignored, silently: adding one changes neither the outcome of the
    construction nor the model. *)
Theorem init_ignores_other_kwargs nc (kwargs : gmap string pyobj) k v n :
  k <> "batch_size" -> k <> "input_shape" ->
  __init__ nc (<[ k := v ]> kwargs) n = __init__ nc kwargs n.
Proof.
  intros Hb Hs. unfold __init__.
  by rewrite !lookup_insert_ne by done.
Qed.

Ltac accept_all H :=
  repeat (apply Forall_cons_1 in H; let E := fresh "E" in destruct H as [E H]).

Ltac run_init He :=
  first
    [ congruence
    | unfold __init__, new; cbv [mbind M_bind mret M_ret];
      repeat (match goal with
              | E : keras_init ?c = Ok tt |- context [keras_init ?c] =>
                  rewrite E
              end);
      rewrite He; reflexivity ].

(** X3.  The constructors are called in source order and the first one
    that raises ends the construction: its exception is the outcome, and
    exactly the layers before it have been allocated. *)
Theorem init_fails_at_first_rejected nc (kwargs : gmap string pyobj) n
    pre cfg post e :
  layer_configs nc kwargs = pre ++ cfg :: post ->
  Forall (fun c => keras_init c = Ok tt) pre ->
  keras_init cfg = Err e ->
  __init__ nc kwargs n = ((length pre + n)%nat, Err e).
Proof.
  unfold layer_configs. intros Hl Hp He.
  do 13 (destruct pre as [|? pre]; cbn [app] in Hl;
         [ injection Hl as Hc _; subst cfg; accept_all Hp; run_init He
         | injection Hl as ? Hl; subst ]).
  by destruct pre.
Qed.

(** ** Further properties of the forward pass *)

Lemma pipeline_length ls v :
  (length (fst (pipeline ls v)) <= length ls)%nat.
Proof.
  revert v. induction ls as [|l ls IH]; intros v; cbn [pipeline].
  - reflexivity.
  - destruct (layer_call l v) as [v'|e]; [|cbn; lia].
    specialize (IH v'). destruct (pipeline ls v') as [evs r].
    cbn [fst length] in *. lia.
Qed.

(** X4.  When the first image cannot be selected ([inputs[0]] raises), the
    forward pass ends with that exception before any layer is applied and
    before any local is assigned. *)
Theorem call_without_first_image self inputs e :
  getitem inputs 0 = Err e ->
  run_call self inputs = (call_frame inputs, Err e).
Proof.
  intros H. rewrite run_call_spec, run_to_distance_spec. cbv zeta.
  by rewrite H.
Qed.

(** X5.  When the encoder succeeds but the second image cannot be selected
    ([inputs[1]] raises), the pass ends with that exception after one
    tower: every encoder layer has been applied once, in source order,
    [first] is assigned, and [second] and [distance] are not. *)
Theorem call_without_second_image self inputs a emb e :
  getitem inputs 0 = Ok a ->
  snd (encoder self {[ "inputs" := inputs ]} a (call_frame inputs)) = Ok emb ->
  getitem inputs 1 = Err e ->
  exists evs,
    run_call self inputs
      = (State (<[ "first" := emb ]> {[ "inputs" := inputs ]}) evs, Err e) /\
    fst <$> evs = encoder_layers self.
Proof.
  intros Ha He Hb.
  rewrite encoder_pipeline, lookup_singleton_eq in He. cbn [snd] in He.
  exists (fst (pipeline (encoder_layers self) inputs)).
  split; [|by eapply pipeline_ok_layers].
  rewrite run_call_spec, run_to_distance_spec. cbv zeta.
  by rewrite Ha, He, Hb.
Qed.

(** X6.  An exception raised by a layer inside the first tower is not
    caught: it is the outcome of the forward pass, and the pass stops
    there, in the state the failed invocation left; the second tower,
    the distance layer and the output layer are not run. *)
Theorem call_propagates_encoder_error self inputs a e :
  getitem inputs 0 = Ok a ->
  snd (encoder self {[ "inputs" := inputs ]} a (call_frame inputs)) = Err e ->
  run_call self inputs
    = (fst (encoder self {[ "inputs" := inputs ]} a (call_frame inputs)),
       Err e).
Proof.
  intros Ha He.
  rewrite encoder_pipeline, lookup_singleton_eq in *. cbn [fst snd] in *.
  rewrite run_call_spec, run_to_distance_spec. cbv zeta.
  by rewrite Ha, He.
Qed.

(** X7.  Whatever the outcome, when the forward pass ends [inputs] is
    still bound to the value [call] was called with, and [x] is not
    bound: no statement of [call] assigns either of them before line 124
    reads [x]. *)
Theorem call_frame_discipline self inputs :
  locals (fst (run_call self inputs)) !! "inputs" = Some inputs /\
  locals (fst (run_call self inputs)) !! "x" = None.
Proof.
  rewrite run_call_spec, run_to_distance_spec. cbv zeta.
  destruct (getitem inputs 0);
    [| cbn [fst locals]; split; by simplify_map_eq ].
  destruct (snd (pipeline (encoder_layers self) inputs)) as [emb|];
    [| cbn [fst locals]; split; by simplify_map_eq ].
  destruct (getitem inputs 1);
    [| cbn [fst locals]; split; by simplify_map_eq ].
  destruct (layer_call (l1 self) _); cbn [fst locals];
    split; by simplify_map_eq.
Qed.

(** X8.  A forward pass applies at most 23 layers: the eleven encoder
    layers twice and the distance layer once. *)
Theorem call_applies_at_most_23_layers self inputs :
  (length (trace (fst (run_call self inputs))) <= 23)%nat.
Proof.
  pose proof (pipeline_length (encoder_layers self) inputs) as Hp.
  cbn [encoder_layers length] in Hp.
  rewrite run_call_spec, run_to_distance_spec. cbv zeta.
  destruct (getitem inputs 0); [|cbn; lia].
  destruct (snd (pipeline (encoder_layers self) inputs));
    [|cbn [fst trace]; lia].
  destruct (getitem inputs 1); [|cbn [fst trace]; lia].
  destruct (layer_call (l1 self) _); cbn [fst trace];
    rewrite !length_app; cbn [length]; lia.
Qed.

(** ** Further properties of the distance layer *)

Lemma Rabs_zero_eq (x y : R) : Rabs (x - y) = 0%R -> x = y.
Proof.
  intros H. apply Rminus_diag_uniq.
  destruct (Req_dec (x - y) 0) as [E|E]; [exact E|].
  by apply Rabs_no_R0 in E.
Qed.

Lemma zip_abs_sym (a b : list R) :
  zip_with (fun x y => Rabs (x - y)) a b
  = zip_with (fun x y => Rabs (x - y)) b a.
Proof.
  revert b. induction a as [|x a IH]; intros [|y b]; cbn; try reflexivity.
  by rewrite IH, Rabs_minus_sym.
Qed.

Lemma zip_abs_zero (a b : list R) :
  length a = length b ->
  zip_with (fun x y => Rabs (x - y)) a b = repeat 0%R (length a) ->
  a = b.
Proof.
  revert b. induction a as [|x a IH]; intros [|y b] Hl; try discriminate Hl;
    [reflexivity|].
  cbn. intros [= Hx Hr]. f_equal; [by apply Rabs_zero_eq|].
  apply IH; [by injection Hl | exact Hr].
Qed.

Lemma zip_abs_unit (a b : list R) :
  Forall (fun r => (0 <= r <= 1)%R) a ->
  Forall (fun r => (0 <= r <= 1)%R) b ->
  Forall (fun r => (0 <= r <= 1)%R) (zip_with (fun x y => Rabs (x - y)) a b).
Proof.
  intros Ha. revert b. induction Ha as [|x a Hx _ IH]; intros b Hb; cbn;
    [constructor|].
  destruct Hb as [|y b Hy Hb]; constructor; [|by apply IH].
  split; [apply Rabs_pos|]. apply Rabs_le. destruct Hx, Hy. lra.
Qed.

(** X9.  The distance is symmetric: on two tensors of one shape, swapping
    the arguments of [l1] leaves the result unchanged. *)
Theorem l1_symmetric (a b : tensor) :
  shape a = shape b ->
  l1_function (VTuple [VTensor a; VTensor b])
  = l1_function (VTuple [VTensor b; VTensor a]).
Proof.
  intros H. rewrite (l1_function_tensors a b H).
  rewrite (l1_function_tensors b a (eq_sym H)).
  by rewrite H, zip_abs_sym.
Qed.

(** X10.  On two well-shaped tensors of one shape, the distance is the
    all-zero tensor exactly when the two tensors are equal. *)
Theorem l1_zero_iff_equal (a b : tensor) :
  well_shaped a -> well_shaped b -> shape a = shape b ->
  l1_function (VTuple [VTensor a; VTensor b]) = Ok (VTensor (zeros_like a))
  <-> a = b.
Proof.
  intros Ha Hb Hs. split.
  - rewrite (l1_function_tensors a b Hs). intros [= H].
    assert (Hl : length (data a) = length (data b)).
    { unfold well_shaped in *. by rewrite Ha, Hb, Hs. }
    apply (zip_abs_zero _ _ Hl) in H.
    destruct a, b. cbn in *. by subst.
  - intros <-. apply l1_function_self.
Qed.

(** X12.  When the elements of both embeddings lie in [0, 1] (the range
    of the sigmoid that ends the encoder), the elements of the distance
    lie in [0, 1] as well. *)
Theorem l1_unit_interval (a b : tensor) :
  shape a = shape b ->
  Forall (fun r => (0 <= r <= 1)%R) (data a) ->
  Forall (fun r => (0 <= r <= 1)%R) (data b) ->
  exists d,
    l1_function (VTuple [VTensor a; VTensor b]) = Ok (VTensor d) /\
    Forall (fun r => (0 <= r <= 1)%R) (data d).
Proof.
  intros Hs Ha Hb. rewrite (l1_function_tensors a b Hs).
  eexists. split; [reflexivity|]. cbn [data]. by apply zip_abs_unit.
Qed.

(** X13.  The function of [l1] reads the items 0 and 1 of its argument
    and nothing else: on a tuple with fewer than two items it raises
    [IndexError], items after the second are ignored, and two items that
    are themselves tuples cannot be subtracted ([TypeError]). *)
Theorem l1_reads_two_items :
  (forall items, (length items < 2)%nat ->
     l1_function (VTuple items) = Err IndexError) /\
  (forall a b rest,
     l1_function (VTuple (a :: b :: rest)) = l1_function (VTuple [a; b])) /\
  (forall xs ys,
     l1_function (VTuple [VTuple xs; VTuple ys]) = Err TypeError).
Proof.
  split; [|split].
  - intros [|a [|b items]] H; cbn in H; try lia; reflexivity.
  - reflexivity.
  - reflexivity.
Qed.

(** ** Further properties of [compute_output_shape] *)

Lemma as_dimension_valid p d : as_dimension p = Ok d -> valid_dim d.
Proof.
  destruct p as [|z|items]; cbn; [by intros [= <-]| |discriminate].
  destruct (decide (z < 0)); [discriminate|]. intros [= <-]. cbn. lia.
Qed.

Lemma mapM_as_dimension_valid items ds :
  mapM as_dimension items = Ok ds -> Forall valid_dim ds.
Proof.
  revert ds. induction items as [|p items IH]; intros ds; cbn.
  - intros [= <-]. constructor.
  - destruct (as_dimension p) as [d|] eqn:Hd; [|discriminate]. cbn.
    destruct (mapM as_dimension items) as [ds'|]; [|discriminate]. cbn.
    intros [= <-]. constructor; [by eapply as_dimension_valid | by apply IH].
Qed.

Lemma TensorShape_valid p ds :
  TensorShape p = Ok (Some ds) -> Forall valid_dim ds.
Proof.
  destruct p as [|z|items]; cbn [TensorShape]; [discriminate| |].
  - destruct (as_dimension (PyInt z)) as [d|] eqn:Hd; [|discriminate].
    intros [= <-]. repeat constructor. by eapply as_dimension_valid.
  - destruct (mapM as_dimension items) as [ds'|] eqn:Hm; [|discriminate].
    intros [= <-]. by eapply mapM_as_dimension_valid.
Qed.

Lemma mapM_as_dimension_snoc (ds : list (option Z)) (z : Z) :
  Forall valid_dim ds ->
  mapM as_dimension ((dimension_value <$> ds) ++ [PyInt z])
  = if decide (z < 0) then Err ValueError else Ok (ds ++ [Some z]).
Proof.
  induction 1 as [|d ds Hd _ IH]; cbn.
  - by destruct (decide (z < 0)).
  - rewrite IH.
    assert (Ed : as_dimension (dimension_value d) = Ok d).
    { destruct d as [y|]; cbn in *; [|reflexivity].
      by rewrite decide_False by lia. }
    rewrite Ed. by destruct (decide (z < 0)).
Qed.

(** What [compute_output_shape] has done when it returns. *)
Lemma compute_output_shape_spec self p r :
  compute_output_shape self p = Ok r ->
  exists ds d,
    TensorShape p = Ok (Some (ds ++ [d])) /\
    Forall valid_dim ds /\
    0 <= num_classes self /\
    r = Some (ds ++ [Some (num_classes self)]).
Proof.
  unfold compute_output_shape.
  destruct (TensorShape p) as [[ds0|]|] eqn:HT; [| discriminate..].
  cbn [mbind result_bind as_list].
  destruct ds0 as [|d ds _] using rev_ind; [discriminate|].
  rewrite fmap_app. cbn [fmap list_fmap]. rewrite setitem_last_app.
  cbn [mbind result_bind TensorShape].
  apply TensorShape_valid, Forall_app in HT as [Hds _].
  rewrite (mapM_as_dimension_snoc ds _ Hds).
  destruct (decide (num_classes self < 0)); [discriminate|].
  intros [= <-]. exists ds, d. repeat split; [exact Hds | lia].
Qed.

(** X14.  Whenever [compute_output_shape] returns, [num_classes] is not
    negative, the input shape had a known rank of at least 1, and the
    result has the same rank: the leading dimensions of the input,
    followed by [num_classes]. *)
Theorem compute_output_shape_keeps_rank self p r :
  compute_output_shape self p = Ok r ->
  0 <= num_classes self /\
  exists ds d,
    TensorShape p = Ok (Some (ds ++ [d])) /\
    r = Some (ds ++ [Some (num_classes self)]).
Proof.
  intros H. apply compute_output_shape_spec in H as (ds & d & HT & _ & Hn & ->).
  split; [exact Hn|]. by exists ds, d.
Qed.

(** X15.  [compute_output_shape] is idempotent: applied to a shape it has
    returned, it returns that shape again. *)
Theorem compute_output_shape_idempotent self p r :
  compute_output_shape self p = Ok r ->
  compute_output_shape self (shape_obj r) = Ok r.
Proof.
  intros H. apply compute_output_shape_spec in H as (ds & d & _ & Hds & Hn & ->).
  unfold compute_output_shape. cbn [shape_obj TensorShape].
  rewrite fmap_app. cbn [fmap list_fmap dimension_value].
  rewrite (mapM_as_dimension_snoc ds _ Hds), decide_False by lia.
  cbn [mbind result_bind mret result_ret as_list].
  rewrite fmap_app. cbn [fmap list_fmap]. rewrite setitem_last_app.
  cbn [mbind result_bind TensorShape].
  by rewrite (mapM_as_dimension_snoc ds _ Hds), decide_False by lia.
Qed.

(** X16.  [compute_output_shape] is not defined on every shape: a shape of
    unknown rank has no list of dimensions ([ValueError]), and the shape
    of a scalar has no last dimension to replace ([IndexError]). *)
Theorem compute_output_shape_undefined self :
  compute_output_shape self PyNone = Err ValueError /\
  compute_output_shape self (PySeq []) = Err IndexError.
Proof. split; reflexivity. Qed.

(** ** The output layer and the forward pass *)

(** The layer objects of a constructed model. *)
Lemma init_layers nc (kwargs : gmap string pyobj) n n' self :
  __init__ nc kwargs n = (n', Ok self) ->
  encoder_layers self
    = zip_with Build_Layer (take 11 (layer_configs 0 kwargs)) (seq n 11) /\
  l1 self = Build_Layer (Lambda l1_function) (11 + n) /\
  prediction self = Build_Layer (Dense nc sigmoid) (12 + n).
Proof.
  unfold __init__, new. cbv [mbind M_bind mret M_ret].
  repeat (step_new; [|discriminate]).
  intros [= <- <-]. repeat split.
Qed.

(** X17.  In a forward pass of a constructed model the output layer object
    [prediction] is never applied: none of the layer objects in the trace
    has its identity. *)
Theorem call_never_applies_prediction nc (kwargs : gmap string pyobj) n n'
    self inputs :
  __init__ nc kwargs n = (n', Ok self) ->
  Forall (fun ev => uid (fst ev) <> uid (prediction self))
         (trace (fst (run_call self inputs))).
Proof.
  intros H. apply init_layers in H as (He & Hl & Hp).
  eapply Forall_impl; [apply run_call_trace|].
  intros [l v] Hev. cbn [fst] in *.
  rewrite He, Hl in Hev. rewrite Hp. cbn in Hev.
  repeat (apply elem_of_cons in Hev as [->|Hev]); cbn [uid]; try lia.
  by apply elem_of_nil in Hev.
Qed.

(** X18.  [num_classes] has no influence on the forward pass: two models
    constructed alike except for [num_classes] end every forward pass in
    the same state, with the same outcome. *)
Theorem call_independent_of_num_classes nc1 nc2 (kwargs : gmap string pyobj)
    n n1 n2 self1 self2 inputs :
  __init__ nc1 kwargs n = (n1, Ok self1) ->
  __init__ nc2 kwargs n = (n2, Ok self2) ->
  run_call self1 inputs = run_call self2 inputs.
Proof.
  intros H1 H2.
  apply init_layers in H1 as (He1 & Hl1 & _).
  apply init_layers in H2 as (He2 & Hl2 & _).
  rewrite !run_call_spec, !run_to_distance_spec.
  by rewrite He1, He2, Hl1, Hl2.
Qed.

(** X19.  A negative [num_classes] that the constructors accepted is
    rejected later: on a model constructed with it, [compute_output_shape]
    raises [ValueError] on every shape of known rank at least 1 with
    valid dimensions. *)
Theorem negative_num_classes_fails_late nc (kwargs : gmap string pyobj) n n'
    self (ds : list (option Z)) d :
  __init__ nc kwargs n = (n', Ok self) ->
  nc < 0 ->
  Forall valid_dim (ds ++ [d]) ->
  compute_output_shape self (PySeq (dimension_value <$> ds ++ [d]))
    = Err ValueError.
Proof.
  intros H Hn Hv. apply init_inv in H as (_ & _ & _ & Hc & _).
  apply compute_output_shape_negative; [exact Hv | by rewrite Hc].
Qed.

End Model.

(** ** The model on concrete inputs

    The results above hold for every instance of the library.  Below they
    are applied to the instance [Zero]. *)

(** A forward pass of [SiameseNetwork(num_classes=1)] on two all-zero
    images, stacked: every statement up to the distance succeeds, and
    line 124 raises. *)
Example zero_pair_forward_pass :
  exists n' self,
    __init__ Zero.keras_init Zero.tf_pack Zero.tf_sub_broadcast 1 ∅ 0%nat
      = (n', Ok self) /\
    call Zero.keras_call self Zero.zero_pair = Err (UnboundLocalError "x").
Proof. eexists _, _. split; reflexivity. Qed.

(** The same pass on the two images given as a Python tuple: the first
    convolution is handed the tuple and rejects it. *)
Example zero_tuple_forward_pass :
  exists n' self,
    __init__ Zero.keras_init Zero.tf_pack Zero.tf_sub_broadcast 1 ∅ 0%nat
      = (n', Ok self) /\
    call Zero.keras_call self
         (VTuple [VTensor (Zero.constant 0 [1; 105; 105; 1]%nat);
                  VTensor (Zero.constant 0 [1; 105; 105; 1]%nat)])
      = Err ValueError.
Proof. eexists _, _. split; reflexivity. Qed.

(** C3 (witness): [SiameseNetwork(num_classes=1)], the first object
    built, on two all-zero images, stacked. *)
Lemma encoder_parameters_shared_witness :
  let inputs := Zero.zero_pair in
  let e := Zero.constant (Zero.activate sigmoid 0) [2; 4096]%nat in
  exists n' self a b,
    __init__ Zero.keras_init Zero.tf_pack Zero.tf_sub_broadcast 1 ∅ 0%nat
      = (n', Ok self) /\
    getitem inputs 0 = Ok a /\
    getitem inputs 1 = Ok b /\
    snd (encoder Zero.keras_call self {[ "inputs" := inputs ]} a
           (call_frame inputs)) = Ok (VTensor e) /\
    uid <$> all_layers self = seq 0 13 /\
    n' = 13%nat /\
    exists evs,
      let st1 :=
        State (<[ "first" := VTensor e ]> {[ "inputs" := inputs ]}) evs in
      encoder Zero.keras_call self {[ "inputs" := inputs ]} a
              (call_frame inputs)
        = (State {[ "inputs" := inputs ]} evs, Ok (VTensor e)) /\
      encoder Zero.keras_call self (locals st1) b st1
        = (State (locals st1) (evs ++ evs), Ok (VTensor e)) /\
      fst <$> evs = encoder_layers self /\
      (fun ev => uid (fst ev)) <$> evs = seq 0 11 /\
      (forall img,
         snd (encoder Zero.keras_call self {[ "inputs" := inputs ]} img
                (call_frame inputs))
         = snd (encoder Zero.keras_call self (locals st1) img st1)) /\
      snd (run_to_distance Zero.keras_call self inputs) = Ok tt /\
      trace (fst (run_to_distance Zero.keras_call self inputs))
        = evs ++ evs ++ [(l1 self, VTuple [VTensor e; VTensor e])].
Proof.
  intros inputs e. eexists _, _, _, _. split; [reflexivity|].
  split; [reflexivity|]. split; [reflexivity|]. split; [reflexivity|].
  eapply (encoder_parameters_shared
            Zero.keras_init Zero.keras_call Zero.tf_pack Zero.tf_sub_broadcast
            1 ∅ 0%nat); reflexivity.
Defined.

(** C6 (witness): the embeddings (1, 3) and (4, 1) of one example. *)
Lemma l1_absolute_difference_witness :
  let a := Tensor [1; 2]%nat [1; 3]%R in
  let b := Tensor [1; 2]%nat [4; 1]%R in
  exists n' self,
    __init__ Zero.keras_init Zero.tf_pack Zero.tf_sub_broadcast 1 ∅ 0%nat
      = (n', Ok self) /\
    well_shaped a /\ well_shaped b /\ shape a = shape b /\
    exists d,
      layer_call Zero.keras_call (l1 self) (VTuple [VTensor a; VTensor b])
        = Ok (VTensor d) /\
      shape d = shape a /\
      well_shaped d /\
      data d = zip_with (fun x y => Rabs (x - y)) (data a) (data b) /\
      Forall (fun r => (0 <= r)%R) (data d).
Proof.
  intros a b. eexists _, _. split; [reflexivity|].
  split; [reflexivity|]. split; [reflexivity|]. split; [reflexivity|].
  eapply (l1_absolute_difference
            Zero.keras_init Zero.keras_call Zero.tf_pack Zero.tf_sub_broadcast
            1 ∅ 0%nat); reflexivity.
Defined.

(** C8.  [compute_output_shape] does not return (batch_size,
    num_classes) on the model's own input shape.  The model built with
    the defaults takes batches of shape (16, 105, 105, 1) and ends in a
    [Dense] layer of [num_classes] units applied to the flattened
    embedding, so its output shape is (16, 1); the method answers
    (16, 105, 105, 1): it replaces the last dimension and keeps the
    spatial ones. *)
Lemma compute_output_shape_rank4 :
  exists n' self,
    __init__ Zero.keras_init Zero.tf_pack Zero.tf_sub_broadcast 1 ∅ 0%nat
      = (n', Ok self) /\
    compute_output_shape self (PySeq [PyInt 16; PyInt 105; PyInt 105; PyInt 1])
      = Ok (Some [Some 16; Some 105; Some 105; Some 1]) /\
    compute_output_shape self (PySeq [PyInt 16; PyInt 105; PyInt 105; PyInt 1])
      <> Ok (Some [Some 16; Some (num_classes self)]).
Proof.
  eexists _, _. split; [reflexivity|]. split; [reflexivity|]. discriminate.
Qed.

(** On the rank-2 shape (16, 4096), with [num_classes = 5]. *)
Lemma compute_output_shape_replaces_last_witness :
  exists n' self,
    __init__ Zero.keras_init Zero.tf_pack Zero.tf_sub_broadcast 5 ∅ 0%nat
      = (n', Ok self) /\
    Forall valid_dim ([Some 16] ++ [Some 4096]) /\
    0 <= num_classes self /\
    compute_output_shape self
      (PySeq (dimension_value <$> [Some 16] ++ [Some 4096]))
      = Ok (Some ([Some 16] ++ [Some (num_classes self)])).
Proof.
  eexists _, _. split; [reflexivity|].
  assert (Hv : Forall valid_dim ([Some 16] ++ [Some 4096])).
  { repeat constructor; cbn; lia. }
  split; [exact Hv|]. split; [cbn; lia|].
  apply compute_output_shape_replaces_last; [exact Hv | cbn; lia].
Defined.

(** C9 (counterexample): with constructors that accept every
    configuration, [SiameseNetwork(num_classes=0)] and
    [SiameseNetwork(num_classes=-1)] are constructed without an error. *)
Lemma init_accepts_nonpositive_num_classes :
  (exists self,
     __init__ Zero.keras_init Zero.tf_pack Zero.tf_sub_broadcast 0 ∅ 0%nat
       = (13%nat, Ok self) /\ num_classes self = 0) /\
  (exists self,
     __init__ Zero.keras_init Zero.tf_pack Zero.tf_sub_broadcast (-1) ∅ 0%nat
       = (13%nat, Ok self) /\ num_classes self = -1).
Proof. split; eexists; split; reflexivity. Qed.

(** C9 (witness): the library accepts the configurations of
    [SiameseNetwork(num_classes=5)], and the model is constructed. *)
Lemma init_validates_nothing_witness :
  Forall (fun cfg => Zero.keras_init cfg = Ok tt)
         (layer_configs Zero.tf_pack Zero.tf_sub_broadcast 5 ∅) /\
  exists self,
    __init__ Zero.keras_init Zero.tf_pack Zero.tf_sub_broadcast 5 ∅ 0%nat
      = (13%nat, Ok self).
Proof.
  assert (H : Forall (fun cfg => Zero.keras_init cfg = Ok tt)
                (layer_configs Zero.tf_pack Zero.tf_sub_broadcast 5 ∅)).
  { apply Forall_true. reflexivity. }
  split; [exact H|].
  exact (proj2 (proj1 (init_validates_nothing
                         Zero.keras_init Zero.tf_pack Zero.tf_sub_broadcast
                         5 ∅ 0%nat)) H).
Defined.

(** C10 (witness): [SiameseNetwork(num_classes=1)] on two all-zero images,
    stacked.  The embedding is the (2, 4096) tensor of sigmoid(0). *)
Lemma towers_agree_distance_zero_witness :
  let e := Zero.constant (Zero.activate sigmoid 0) [2; 4096]%nat in
  exists n' self a b,
    __init__ Zero.keras_init Zero.tf_pack Zero.tf_sub_broadcast 1 ∅ 0%nat
      = (n', Ok self) /\
    getitem Zero.zero_pair 0 = Ok a /\
    getitem Zero.zero_pair 1 = Ok b /\
    snd (encoder Zero.keras_call self {[ "inputs" := Zero.zero_pair ]} a
           (call_frame Zero.zero_pair)) = Ok (VTensor e) /\
    let r := run_to_distance Zero.keras_call self Zero.zero_pair in
    snd r = Ok tt /\
    locals (fst r) !! "first" = Some (VTensor e) /\
    locals (fst r) !! "second" = Some (VTensor e) /\
    locals (fst r) !! "distance" = Some (VTensor (zeros_like e)).
Proof.
  intros e. eexists _, _, _, _. split; [reflexivity|].
  split; [reflexivity|]. split; [reflexivity|]. split; [reflexivity|].
  eapply (proj2 (proj2 (towers_agree_distance_zero
                          Zero.keras_init Zero.keras_call
                          Zero.tf_pack Zero.tf_sub_broadcast
                          1 ∅ 0%nat _ _ eq_refl))); reflexivity.
Defined.

(** ** Further properties on concrete inputs *)

(** X2 (witness): a misspelt keyword argument. *)
Lemma init_ignores_other_kwargs_witness :
  "batch_sise" <> "batch_size" /\
  "batch_sise" <> "input_shape" /\
  __init__ Zero.keras_init Zero.tf_pack Zero.tf_sub_broadcast 1
           (<[ "batch_sise" := PyInt 8 ]> ∅) 0%nat
  = __init__ Zero.keras_init Zero.tf_pack Zero.tf_sub_broadcast 1 ∅ 0%nat.
Proof.
  split; [done|]. split; [done|].
  by apply init_ignores_other_kwargs.
Defined.

(** X3 (witness): [SiameseNetwork(num_classes=0)] with constructors that
    need a positive number of units: the output layer is rejected, after
    the twelve other layers have been built. *)
Lemma init_fails_at_first_rejected_witness :
  let pre := take 12 (layer_configs Zero.tf_pack Zero.tf_sub_broadcast 0 ∅) in
  layer_configs Zero.tf_pack Zero.tf_sub_broadcast 0 ∅
    = pre ++ Dense 0 sigmoid :: [] /\
  Forall (fun c => Strict.keras_init c = Ok tt) pre /\
  Strict.keras_init (Dense 0 sigmoid) = Err ValueError /\
  __init__ Strict.keras_init Zero.tf_pack Zero.tf_sub_broadcast 0 ∅ 0%nat
    = ((length pre + 0)%nat, Err ValueError).
Proof.
  intros pre.
  assert (Hp : Forall (fun c => Strict.keras_init c = Ok tt) pre).
  { repeat constructor. }
  split; [reflexivity|]. split; [exact Hp|]. split; [reflexivity|].
  by apply (init_fails_at_first_rejected
              Strict.keras_init Zero.tf_pack Zero.tf_sub_broadcast
              0 ∅ 0%nat pre (Dense 0 sigmoid) []).
Defined.

(** X4 (witness): the empty tuple. *)
Lemma call_without_first_image_witness :
  exists n' self,
    __init__ Zero.keras_init Zero.tf_pack Zero.tf_sub_broadcast 1 ∅ 0%nat
      = (n', Ok self) /\
    getitem (VTuple []) 0 = Err IndexError /\
    run_call Zero.keras_call self (VTuple [])
      = (call_frame (VTuple []), Err IndexError).
Proof.
  eexists _, _. split; [reflexivity|]. split; [reflexivity|].
  by apply call_without_first_image.
Defined.

(** X5 (witness): a single batch holding one all-zero image, passed where
    a pair is expected. *)
Lemma call_without_second_image_witness :
  let inputs := VTensor (Zero.constant 0 [1; 105; 105; 1]%nat) in
  let emb := VTensor (Zero.constant (Zero.activate sigmoid 0) [1; 4096]%nat) in
  exists n' self a,
    __init__ Zero.keras_init Zero.tf_pack Zero.tf_sub_broadcast 1 ∅ 0%nat
      = (n', Ok self) /\
    getitem inputs 0 = Ok a /\
    snd (encoder Zero.keras_call self {[ "inputs" := inputs ]} a
           (call_frame inputs)) = Ok emb /\
    getitem inputs 1 = Err IndexError /\
    exists evs,
      run_call Zero.keras_call self inputs
        = (State (<[ "first" := emb ]> {[ "inputs" := inputs ]}) evs,
           Err IndexError) /\
      fst <$> evs = encoder_layers self.
Proof.
  intros inputs emb. eexists _, _, _. split; [reflexivity|].
  split; [reflexivity|]. split; [reflexivity|]. split; [reflexivity|].
  eapply call_without_second_image; reflexivity.
Defined.

(** X6 (witness): two all-zero images given as a tuple; the first
    convolution rejects the tuple. *)
Lemma call_propagates_encoder_error_witness :
  let img := VTensor (Zero.constant 0 [1; 105; 105; 1]%nat) in
  let inputs := VTuple [img; img] in
  exists n' self,
    __init__ Zero.keras_init Zero.tf_pack Zero.tf_sub_broadcast 1 ∅ 0%nat
      = (n', Ok self) /\
    getitem inputs 0 = Ok img /\
    snd (encoder Zero.keras_call self {[ "inputs" := inputs ]} img
           (call_frame inputs)) = Err ValueError /\
    run_call Zero.keras_call self inputs
      = (fst (encoder Zero.keras_call self {[ "inputs" := inputs ]} img
                (call_frame inputs)),
         Err ValueError).
Proof.
  intros img inputs. eexists _, _. split; [reflexivity|].
  split; [reflexivity|]. split; [reflexivity|].
  apply call_propagates_encoder_error; reflexivity.
Defined.

(** X9 (witness): the embeddings (1, 3) and (4, 1). *)
Lemma l1_symmetric_witness :
  let a := Tensor [1; 2]%nat [1; 3]%R in
  let b := Tensor [1; 2]%nat [4; 1]%R in
  shape a = shape b /\
  l1_function Zero.tf_pack Zero.tf_sub_broadcast (VTuple [VTensor a; VTensor b])
  = l1_function Zero.tf_pack Zero.tf_sub_broadcast
      (VTuple [VTensor b; VTensor a]).
Proof.
  intros a b. split; [reflexivity|]. by apply l1_symmetric.
Defined.

(** X10 (witness): the embedding (1, 3) against itself. *)
Lemma l1_zero_iff_equal_witness :
  let a := Tensor [1; 2]%nat [1; 3]%R in
  well_shaped a /\ shape a = shape a /\
  (l1_function Zero.tf_pack Zero.tf_sub_broadcast
     (VTuple [VTensor a; VTensor a]) = Ok (VTensor (zeros_like a))
   <-> a = a).
Proof.
  intros a. split; [reflexivity|]. split; [reflexivity|].
  by apply l1_zero_iff_equal.
Defined.

(** X12 (witness): the embeddings (0, 1) and (1/2, 1). *)
Lemma l1_unit_interval_witness :
  let a := Tensor [1; 2]%nat [0; 1]%R in
  let b := Tensor [1; 2]%nat [/ 2; 1]%R in
  shape a = shape b /\
  Forall (fun r => (0 <= r <= 1)%R) (data a) /\
  Forall (fun r => (0 <= r <= 1)%R) (data b) /\
  exists d,
    l1_function Zero.tf_pack Zero.tf_sub_broadcast
      (VTuple [VTensor a; VTensor b]) = Ok (VTensor d) /\
    Forall (fun r => (0 <= r <= 1)%R) (data d).
Proof.
  intros a b.
  assert (Ha : Forall (fun r => (0 <= r <= 1)%R) (data a)).
  { repeat constructor; lra. }
  assert (Hb : Forall (fun r => (0 <= r <= 1)%R) (data b)).
  { repeat constructor; lra. }
  split; [reflexivity|]. split; [exact Ha|]. split; [exact Hb|].
  by apply l1_unit_interval.
Defined.

(** X14, X15 (witnesses): [SiameseNetwork(num_classes=5)] on the shape
    (16, 4096). *)
Lemma compute_output_shape_keeps_rank_witness :
  let p := PySeq [PyInt 16; PyInt 4096] in
  exists n' self,
    __init__ Zero.keras_init Zero.tf_pack Zero.tf_sub_broadcast 5 ∅ 0%nat
      = (n', Ok self) /\
    compute_output_shape self p = Ok (Some [Some 16; Some 5]) /\
    0 <= num_classes self /\
    exists ds d,
      TensorShape p = Ok (Some (ds ++ [d])) /\
      Some [Some 16; Some 5] = Some (ds ++ [Some (num_classes self)]).
Proof.
  intros p. eexists _, _. split; [reflexivity|]. split; [reflexivity|].
  by apply (compute_output_shape_keeps_rank _ p).
Defined.

Lemma compute_output_shape_idempotent_witness :
  let p := PySeq [PyInt 16; PyInt 4096] in
  let r := Some [Some 16; Some 5] in
  exists n' self,
    __init__ Zero.keras_init Zero.tf_pack Zero.tf_sub_broadcast 5 ∅ 0%nat
      = (n', Ok self) /\
    compute_output_shape self p = Ok r /\
    compute_output_shape self (shape_obj r) = Ok r.
Proof.
  intros p r. eexists _, _. split; [reflexivity|]. split; [reflexivity|].
  by apply (compute_output_shape_idempotent _ p).
Defined.

(** X17 (witness): [SiameseNetwork(num_classes=1)] on two all-zero images,
    stacked. *)
Lemma call_never_applies_prediction_witness :
  exists n' self,
    __init__ Zero.keras_init Zero.tf_pack Zero.tf_sub_broadcast 1 ∅ 0%nat
      = (n', Ok self) /\
    Forall (fun ev => uid (fst ev) <> uid (prediction self))
           (trace (fst (run_call Zero.keras_call self Zero.zero_pair))).
Proof.
  eexists _, _. split; [reflexivity|].
  by eapply (call_never_applies_prediction
               Zero.keras_init Zero.keras_call
               Zero.tf_pack Zero.tf_sub_broadcast 1 ∅ 0%nat).
Defined.

(** X18 (witness): [num_classes=1] against [num_classes=5]. *)
Lemma call_independent_of_num_classes_witness :
  exists n1 n2 self1 self2,
    __init__ Zero.keras_init Zero.tf_pack Zero.tf_sub_broadcast 1 ∅ 0%nat
      = (n1, Ok self1) /\
    __init__ Zero.keras_init Zero.tf_pack Zero.tf_sub_broadcast 5 ∅ 0%nat
      = (n2, Ok self2) /\
    run_call Zero.keras_call self1 Zero.zero_pair
    = run_call Zero.keras_call self2 Zero.zero_pair.
Proof.
  eexists _, _, _, _. split; [reflexivity|]. split; [reflexivity|].
  by eapply (call_independent_of_num_classes
               Zero.keras_init Zero.keras_call
               Zero.tf_pack Zero.tf_sub_broadcast 1 5 ∅ 0%nat).
Defined.

(** X19 (witness): [SiameseNetwork(num_classes=-1)], constructed without
    an error, on the shape (16, 4096). *)
Lemma negative_num_classes_fails_late_witness :
  exists n' self,
    __init__ Zero.keras_init Zero.tf_pack Zero.tf_sub_broadcast (-1) ∅ 0%nat
      = (n', Ok self) /\
    -1 < 0 /\
    Forall valid_dim ([Some 16] ++ [Some 4096]) /\
    compute_output_shape self
      (PySeq (dimension_value <$> [Some 16] ++ [Some 4096]))
      = Err ValueError.
Proof.
  eexists _, _. split; [reflexivity|].
  assert (Hv : Forall valid_dim ([Some 16] ++ [Some 4096])).
  { repeat constructor; cbn; lia. }
  split; [lia|]. split; [exact Hv|].
  eapply (negative_num_classes_fails_late
            Zero.keras_init Zero.tf_pack Zero.tf_sub_broadcast (-1) ∅ 0%nat);
    [reflexivity | lia | exact Hv].
Defined.
